(** * Static partitioned table analysis job

    A shallow embedding of
    [pkg/statistics/handle/autoanalyze/priorityqueue/static_partitioned_table_analysis_job.go]
    and the properties of its natural-language specification.

    The Go code talks to four external collaborators: the session pool, the
    executor [exec.AutoAnalyze], the validity predicate [isValidToAnalyze] and
    the hooks registered by the owning queue.  Every interaction with one of
    them is recorded as an [Event] in a trace; what the collaborator answers is
    given by an oracle that may look at the whole trace so far. *)

From Stdlib Require Import List String ZArith Bool Lia Floats.
Import ListNotations.
Local Open Scope string_scope.
Local Open Scope list_scope.
Local Open Scope Z_scope.

(** ** Data model *)

(** Go's [error]: [None] is [nil], [Some msg] an error carrying a message. *)
Definition error := option string.

(** [type analyzeType string] with its two constants. *)
Definition analyzeType := string.
Definition analyzeStaticPartition : analyzeType := "analyzeStaticPartition".
Definition analyzeStaticPartitionIndex : analyzeType := "analyzeStaticPartitionIndex".

(** The [Indicators] struct embedded in every job ([time.Duration] is an
    int64 count of nanoseconds). *)
Record Indicators := mkIndicators {
  ChangePercentage : float;
  TableSize : float;
  LastAnalysisDuration : Z
}.

(** A hook is a function value of the owning queue.  The job never looks
    inside it: it only tests it against [nil] and calls it, so a hook is a
    code reference, and [JobHook] is a possibly-nil reference. *)
Definition HookRef := nat.
Definition JobHook := option HookRef.

Record StaticPartitionedTableAnalysisJob := mkJob {
  successHook : JobHook;
  failureHook : JobHook;
  TableSchema : string;
  GlobalTableName : string;
  StaticPartitionName : string;
  Indexes : list string;
  indicators : Indicators;
  GlobalTableID : Z;
  StaticPartitionID : Z;
  TableStatsVer : Z;
  Weight : float
}.

Definition Job := StaticPartitionedTableAnalysisJob.

(** External handles.  [sessionctx.Context] is reduced to what the job reads
    from it: [sctx.GetSessionVars().AnalyzeVersion]. *)
Record SessionVars := mkSessionVars { AnalyzeVersion : Z }.
Record Context := mkContext { sessionID : nat; GetSessionVars : SessionVars }.
Definition SessionPool := nat.
Record StatsHandle := mkStatsHandle { SPool : SessionPool }.
Definition Tracker := nat.

(** ** Construction and accessors *)

Definition NewStaticPartitionTableAnalysisJob
  (schema globalTableName : string) (globalTableID : Z)
  (partitionName : string) (partitionID : Z)
  (indexes : list string) (tableStatsVer : Z)
  (changePercentage tableSize : float) (lastAnalysisDuration : Z) : Job :=
  {| successHook := None;
     failureHook := None;
     TableSchema := schema;
     GlobalTableName := globalTableName;
     StaticPartitionName := partitionName;
     Indexes := indexes;
     indicators := {| ChangePercentage := changePercentage;
                      TableSize := tableSize;
                      LastAnalysisDuration := lastAnalysisDuration |};
     GlobalTableID := globalTableID;
     StaticPartitionID := partitionID;
     TableStatsVer := tableStatsVer;
     Weight := 0%float |}.

Definition GetTableID (j : Job) : Z := StaticPartitionID j.

Definition RegisterSuccessHook (j : Job) (hook : JobHook) : Job :=
  {| successHook := hook;
     failureHook := failureHook j;
     TableSchema := TableSchema j;
     GlobalTableName := GlobalTableName j;
     StaticPartitionName := StaticPartitionName j;
     Indexes := Indexes j;
     indicators := indicators j;
     GlobalTableID := GlobalTableID j;
     StaticPartitionID := StaticPartitionID j;
     TableStatsVer := TableStatsVer j;
     Weight := Weight j |}.

Definition RegisterFailureHook (j : Job) (hook : JobHook) : Job :=
  {| successHook := successHook j;
     failureHook := hook;
     TableSchema := TableSchema j;
     GlobalTableName := GlobalTableName j;
     StaticPartitionName := StaticPartitionName j;
     Indexes := Indexes j;
     indicators := indicators j;
     GlobalTableID := GlobalTableID j;
     StaticPartitionID := StaticPartitionID j;
     TableStatsVer := TableStatsVer j;
     Weight := Weight j |}.

Definition GetIndicators (j : Job) : Indicators := indicators j.

Definition SetIndicators (j : Job) (i : Indicators) : Job :=
  {| successHook := successHook j;
     failureHook := failureHook j;
     TableSchema := TableSchema j;
     GlobalTableName := GlobalTableName j;
     StaticPartitionName := StaticPartitionName j;
     Indexes := Indexes j;
     indicators := i;
     GlobalTableID := GlobalTableID j;
     StaticPartitionID := StaticPartitionID j;
     TableStatsVer := TableStatsVer j;
     Weight := Weight j |}.

Definition SetWeight (j : Job) (weight : float) : Job :=
  {| successHook := successHook j;
     failureHook := failureHook j;
     TableSchema := TableSchema j;
     GlobalTableName := GlobalTableName j;
     StaticPartitionName := StaticPartitionName j;
     Indexes := Indexes j;
     indicators := indicators j;
     GlobalTableID := GlobalTableID j;
     StaticPartitionID := StaticPartitionID j;
     TableStatsVer := TableStatsVer j;
     Weight := weight |}.

Definition GetWeight (j : Job) : float := Weight j.

(** [len(j.Indexes) > 0] *)
Definition HasNewlyAddedIndex (j : Job) : bool :=
  (0 <? List.length (Indexes j))%nat.

Definition getAnalyzeType (j : Job) : analyzeType :=
  if HasNewlyAddedIndex j then analyzeStaticPartitionIndex
  else analyzeStaticPartition.

(** ** SQL generation: a template and its positional parameters *)

Definition GenSQLForAnalyzeStaticPartition (j : Job) : string * list string :=
  let sql := "analyze table %n.%n partition %n" in
  let params := [TableSchema j; GlobalTableName j; StaticPartitionName j] in
  (sql, params).

Definition GenSQLForAnalyzeStaticPartitionIndex (j : Job) (index : string)
  : string * list string :=
  let sql := "analyze table %n.%n partition %n index %n" in
  let params :=
    [TableSchema j; GlobalTableName j; StaticPartitionName j; index] in
  (sql, params).

(** The methods of the job that assign one of its fields; [Analyze] and
    [IsValidToAnalyze] below only read the job. *)
Inductive JobOp :=
| OpRegisterSuccessHook (hook : JobHook)
| OpRegisterFailureHook (hook : JobHook)
| OpSetIndicators (i : Indicators)
| OpSetWeight (weight : float).

Definition applyOp (j : Job) (op : JobOp) : Job :=
  match op with
  | OpRegisterSuccessHook h => RegisterSuccessHook j h
  | OpRegisterFailureHook h => RegisterFailureHook j h
  | OpSetIndicators i => SetIndicators j i
  | OpSetWeight w => SetWeight j w
  end.

Definition applyOps (j : Job) (ops : list JobOp) : Job :=
  fold_left applyOp ops j.

(** ** Interaction with the collaborators *)

Inductive Event :=
| EvPoolGet (pool : SessionPool) (res : Context + string)
| EvPoolPut (pool : SessionPool) (sctx : Context)
| EvAutoAnalyze (sctx : Context) (statsVer : Z) (sql : string)
                (params : list string) (ok : bool)
| EvIsValid (sctx : Context) (schema table : string)
            (partitionNames : list string) (valid : bool) (reason : string)
| EvHook (hook : HookRef) (j : Job).

Definition Trace := list Event.

Definition isHookEvent (e : Event) : bool :=
  match e with EvHook _ _ => true | _ => false end.

Definition isExecEvent (e : Event) : bool :=
  match e with EvAutoAnalyze _ _ _ _ _ => true | _ => false end.

Definition hookEvents (t : Trace) : Trace := filter isHookEvent t.
Definition execEvents (t : Trace) : Trace := filter isExecEvent t.

(** A computation reads and extends the trace; [None] is a run-time panic
    (calling a nil function value, indexing past the end of a slice). *)
Definition M (A : Type) : Type := Trace -> option (A * Trace).

Definition ret {A} (a : A) : M A := fun t => Some (a, t).

Definition bind {A B} (m : M A) (k : A -> M B) : M B :=
  fun t => match m t with
           | Some (a, t') => k a t'
           | None => None
           end.

Definition panic {A} : M A := fun _ => None.
Definition history : M Trace := fun t => Some (t, t).
Definition emit (e : Event) : M unit := fun t => Some (tt, t ++ [e]).

Declare Scope go_scope.
Delimit Scope go_scope with go.
Notation "x <- m ;; k" := (bind m (fun x => k))
  (at level 61, m at next level, right associativity) : go_scope.
Notation "' p <- m ;; k" := (bind m (fun x => match x with p => k end))
  (at level 61, p pattern, m at next level, right associativity) : go_scope.
Notation "m ;; k" := (bind m (fun _ => k))
  (at level 61, right associativity) : go_scope.

Definition isNil (h : JobHook) : bool :=
  match h with None => true | Some _ => false end.

(** [hook(j)]: calling a nil function value panics. *)
Definition callHook (h : JobHook) (j : Job) : M unit :=
  match h with
  | Some f => emit (EvHook f j)
  | None => panic
  end.

(** [s[i]]: indexing out of range panics. *)
Definition indexAt (s : list string) (i : nat) : M string :=
  match nth_error s i with
  | Some x => ret x
  | None => panic
  end.

(** ** The job's operations *)

Section Collaborators.

Local Open Scope go_scope.

(** What the collaborators answer, given the interactions so far:
    [pool.Get()], [exec.AutoAnalyze(...)] and the package's
    [isValidToAnalyze(...)]. *)
Variable poolGet : Trace -> SessionPool -> Context + string.
Variable AutoAnalyze :
  Trace -> Context -> StatsHandle -> Tracker -> Z -> string -> list string -> bool.
Variable isValidToAnalyze :
  Trace -> Context -> string -> string -> list string -> bool * string.

Definition execAutoAnalyze (sctx : Context) (statsHandle : StatsHandle)
    (sysProcTracker : Tracker) (statsVer : Z) (sql : string)
    (params : list string) : M bool :=
  t <- history ;;
  let ok := AutoAnalyze t sctx statsHandle sysProcTracker statsVer sql params in
  emit (EvAutoAnalyze sctx statsVer sql params ok) ;;
  ret ok.

Definition callIsValidToAnalyze (sctx : Context) (schema table : string)
    (partitionNames : list string) : M (bool * string) :=
  t <- history ;;
  let r := isValidToAnalyze t sctx schema table partitionNames in
  emit (EvIsValid sctx schema table partitionNames (fst r) (snd r)) ;;
  ret r.

(** Modelled from the spec: [statsutil.CallWithSCtx] is not part of the
    source file.  It is the pool's "run with a borrowed session" primitive
    with guaranteed release, whose own faults surface through it: it asks
    the pool for a session; when the pool has none it hands the pool's
    error back without running the callback (there is no session to run it
    on); otherwise it runs the callback on the session, releases the
    session and returns the callback's error.  The variables the Go closure
    captures are threaded through as [s]. *)
Definition CallWithSCtx {S : Type} (pool : SessionPool)
    (f : Context -> S -> M (error * S)) (s : S) : M (error * S) :=
  t <- history ;;
  match poolGet t pool with
  | inr e =>
      emit (EvPoolGet pool (inr e)) ;;
      ret (Some e, s)
  | inl sctx =>
      emit (EvPoolGet pool (inl sctx)) ;;
      r <- f sctx s ;;
      emit (EvPoolPut pool sctx) ;;
      ret r
  end.

(** The method [j.analyzeStaticPartition]; the plain name is taken by the
    [analyzeType] constant. *)
Definition doAnalyzeStaticPartition (j : Job) (sctx : Context)
    (statsHandle : StatsHandle) (sysProcTracker : Tracker) : M bool :=
  let '(sql, params) := GenSQLForAnalyzeStaticPartition j in
  execAutoAnalyze sctx statsHandle sysProcTracker (TableStatsVer j) sql params.

(** The [for _, index := range j.Indexes] loop of the version-1 branch,
    with its early [return false]. *)
Fixpoint analyzeEachIndex (j : Job) (sctx : Context)
    (statsHandle : StatsHandle) (sysProcTracker : Tracker)
    (indexes : list string) : M bool :=
  match indexes with
  | [] => ret true
  | index :: rest =>
      let '(sql, params) := GenSQLForAnalyzeStaticPartitionIndex j index in
      ok <- execAutoAnalyze sctx statsHandle sysProcTracker
              (TableStatsVer j) sql params ;;
      if negb ok then ret false
      else analyzeEachIndex j sctx statsHandle sysProcTracker rest
  end.

(** The tail of [analyzeStaticPartitionIndexes]: only [j.Indexes[0]]. *)
Definition analyzeFirstIndex (j : Job) (sctx : Context)
    (statsHandle : StatsHandle) (sysProcTracker : Tracker) : M bool :=
  firstIndex <- indexAt (Indexes j) 0 ;;
  let '(sql, params) := GenSQLForAnalyzeStaticPartitionIndex j firstIndex in
  execAutoAnalyze sctx statsHandle sysProcTracker (TableStatsVer j) sql params.

Definition analyzeStaticPartitionIndexes (j : Job) (sctx : Context)
    (statsHandle : StatsHandle) (sysProcTracker : Tracker) : M bool :=
  if (List.length (Indexes j) =? 0)%nat then ret true
  else
    let analyzeVersion := AnalyzeVersion (GetSessionVars sctx) in
    if analyzeVersion =? 1 then
      analyzeEachIndex j sctx statsHandle sysProcTracker (Indexes j)
    else
      analyzeFirstIndex j sctx statsHandle sysProcTracker.

(** The closure [Analyze] passes to [CallWithSCtx].  It captures the local
    [success], assigns it in the two cases of the [switch] and returns
    [nil]. *)
Definition analyzeWithSession (j : Job) (statsHandle : StatsHandle)
    (sysProcTracker : Tracker) (sctx : Context) (success : bool)
    : M (error * bool) :=
  let ty := getAnalyzeType j in
  if String.eqb ty analyzeStaticPartition then
    ok <- doAnalyzeStaticPartition j sctx statsHandle sysProcTracker ;;
    ret (None, ok)
  else if String.eqb ty analyzeStaticPartitionIndex then
    ok <- analyzeStaticPartitionIndexes j sctx statsHandle sysProcTracker ;;
    ret (None, ok)
  else ret (None, success).

(** The function [Analyze] defers: it reads the final [success]. *)
Definition fireHook (j : Job) (success : bool) : M unit :=
  if success then
    if negb (isNil (successHook j)) then callHook (successHook j) j
    else ret tt
  else
    if negb (isNil (failureHook j)) then callHook (failureHook j) j
    else ret tt.

(** [Analyze] up to its [return]: the error to return and the final value
    of [success]. *)
Definition analyzeBody (j : Job) (statsHandle : StatsHandle)
    (sysProcTracker : Tracker) : M (error * bool) :=
  let success := true in
  CallWithSCtx (SPool statsHandle)
    (analyzeWithSession j statsHandle sysProcTracker) success.

(** The deferred function runs once the returned error is computed. *)
Definition Analyze (j : Job) (statsHandle : StatsHandle)
    (sysProcTracker : Tracker) : M error :=
  '(err, success) <- analyzeBody j statsHandle sysProcTracker ;;
  fireHook j success ;;
  ret err.

Definition IsValidToAnalyze (j : Job) (sctx : Context) : M (bool * string) :=
  if negb (String.eqb (StaticPartitionName j) "") then
    let partitionNames := [StaticPartitionName j] in
    '(valid, failReason) <-
      callIsValidToAnalyze sctx (TableSchema j) (GlobalTableName j)
        partitionNames ;;
    if negb valid then
      (if negb (isNil (failureHook j)) then callHook (failureHook j) j
       else ret tt) ;;
      ret (false, failReason)
    else ret (true, "")
  else ret (true, "").

(** What the executor answers, after the interactions [t], to the
    statement the job generates for [index]. *)
Definition indexAnswer (t : Trace) (j : Job) (sctx : Context)
    (statsHandle : StatsHandle) (sysProcTracker : Tracker)
    (index : string) : bool :=
  let '(sql, params) := GenSQLForAnalyzeStaticPartitionIndex j index in
  AutoAnalyze t sctx statsHandle sysProcTracker (TableStatsVer j) sql params.

End Collaborators.

(** ** Vocabulary of the properties *)

(** The trace entry of the statement generated for [index], with the
    executor's answer [ok]. *)
Definition indexStatement (j : Job) (sctx : Context) (index : string)
    (ok : bool) : Event :=
  let '(sql, params) := GenSQLForAnalyzeStaticPartitionIndex j index in
  EvAutoAnalyze sctx (TableStatsVer j) sql params ok.

(** The trace entry of the whole-partition statement. *)
Definition partitionStatement (j : Job) (sctx : Context) (ok : bool) : Event :=
  let '(sql, params) := GenSQLForAnalyzeStaticPartition j in
  EvAutoAnalyze sctx (TableStatsVer j) sql params ok.

(** The executor's answer recorded in a trace entry. *)
Definition eventOk (e : Event) : bool :=
  match e with
  | EvAutoAnalyze _ _ _ _ ok => ok
  | _ => true
  end.

(** The statistics version a trace entry handed to the executor. *)
Definition eventStatsVer (e : Event) : option Z :=
  match e with
  | EvAutoAnalyze _ ver _ _ _ => Some ver
  | _ => None
  end.

(** Every entry of a trace is a statement run with the job's statistics
    version. *)
Definition statementsOf (j : Job) (evs : Trace) : Prop :=
  Forall (fun e => isExecEvent e = true /\
                   eventStatsVer e = Some (TableStatsVer j)) evs.

(** The error a [pool.Get()] result carries. *)
Definition poolError (r : Context + string) : error :=
  match r with
  | inl _ => None
  | inr e => Some e
  end.

(** The hook calls that a final [success] gives rise to. *)
Definition hookCalls (j : Job) (success : bool) : Trace :=
  match (if success then successHook j else failureHook j) with
  | Some f => [EvHook f j]
  | None => []
  end.

(** A trace entry is a statement of job [j] run on session [sctx]: the
    whole-partition statement of a job without indexes, or the statement of
    one of the job's indexes. *)
Definition statementFor (j : Job) (sctx : Context) (e : Event) : Prop :=
  (Indexes j = [] /\ exists ok, e = partitionStatement j sctx ok) \/
  (exists i ok, In i (Indexes j) /\ e = indexStatement j sctx i ok).

(** Two jobs name the same schema, table, partition, indexes and statistics
    version. *)
Definition sameTarget (j1 j2 : Job) : Prop :=
  TableSchema j1 = TableSchema j2 /\
  GlobalTableName j1 = GlobalTableName j2 /\
  StaticPartitionName j1 = StaticPartitionName j2 /\
  Indexes j1 = Indexes j2 /\
  TableStatsVer j1 = TableStatsVer j2.

(** What an entry that [Analyze] adds to the trace may be, for a job [j]
    whose pool answered [got]: the pool's answer, the release of the lent
    session, a statement of the job on that session, or a call of one of
    the job's hooks with the job itself. *)
Definition analyzeEntry (j : Job) (pool : SessionPool)
    (got : Context + string) (e : Event) : Prop :=
  match e with
  | EvPoolGet p r => p = pool /\ r = got
  | EvPoolPut p sctx => p = pool /\ got = inl sctx
  | EvAutoAnalyze _ _ _ _ _ =>
      exists sctx, got = inl sctx /\ statementFor j sctx e
  | EvIsValid _ _ _ _ _ _ => False
  | EvHook f j' =>
      j' = j /\ (successHook j = Some f \/ failureHook j = Some f)
  end.

(** ** Sample jobs and collaborators *)

Module Samples.

Definition sctxV1 : Context :=
  {| sessionID := 7; GetSessionVars := {| AnalyzeVersion := 1 |} |}.
Definition sctxV2 : Context :=
  {| sessionID := 8; GetSessionVars := {| AnalyzeVersion := 2 |} |}.

Definition handle : StatsHandle := {| SPool := 0%nat |}.
Definition tracker : Tracker := 0%nat.

(** A pool that always lends the given session, and one that has none. *)
Definition poolLends (sctx : Context) : Trace -> SessionPool -> Context + string :=
  fun _ _ => inl sctx.
Definition poolEmpty : Trace -> SessionPool -> Context + string :=
  fun _ _ => inr "no session available".

(** An executor with a fixed answer, and one that fails exactly on the
    statements whose last parameter is [bad]. *)
Definition execAnswers (b : bool)
  : Trace -> Context -> StatsHandle -> Tracker -> Z -> string -> list string -> bool :=
  fun _ _ _ _ _ _ _ => b.
Definition execFailsOn (bad : string)
  : Trace -> Context -> StatsHandle -> Tracker -> Z -> string -> list string -> bool :=
  fun _ _ _ _ _ _ params => negb (String.eqb (last params "") bad).

Definition validNo (reason : string)
  : Trace -> Context -> string -> string -> list string -> bool * string :=
  fun _ _ _ _ _ => (false, reason).

(** Partition [p0] (id 101) of table [test.t] (id 100), statistics
    version [ver], newly added indexes [indexes]. *)
Definition newJob (indexes : list string) (ver : Z) : Job :=
  NewStaticPartitionTableAnalysisJob "test" "t" 100 "p0" 101 indexes ver
    0.5%float 1000%float 60.

Definition withHooks (j : Job) : Job :=
  RegisterFailureHook (RegisterSuccessHook j (Some 1%nat)) (Some 2%nat).

Definition jobPartition : Job := withHooks (newJob [] 2).
Definition jobIndexesV1 : Job := withHooks (newJob ["idx1"; "idx2"; "idx3"] 1).
Definition jobIndexesV2 : Job := withHooks (newJob ["idx1"; "idx2"; "idx3"] 2).

End Samples.

(** ** Properties of the pure part *)

(** C7: the analyze type is a function of the index-name sequence alone:
    an empty sequence gives the partition type, a non-empty one the index
    type, and two jobs with the same sequence get the same type whatever
    their other fields hold (nothing is cached). *)
Theorem analyze_type_from_indexes :
  (forall j : Job, Indexes j = [] -> getAnalyzeType j = analyzeStaticPartition) /\
  (forall j : Job, Indexes j <> [] ->
     getAnalyzeType j = analyzeStaticPartitionIndex) /\
  (forall j1 j2 : Job, Indexes j1 = Indexes j2 ->
     getAnalyzeType j1 = getAnalyzeType j2 /\
     HasNewlyAddedIndex j1 = HasNewlyAddedIndex j2) /\
  analyzeStaticPartition <> analyzeStaticPartitionIndex.
Proof.
  unfold getAnalyzeType, HasNewlyAddedIndex.
  repeat split.
  - intros j E. now rewrite E.
  - intros j N. destruct (Indexes j) as [|i l]; [contradiction | reflexivity].
  - now rewrite H.
  - now rewrite H.
  - discriminate.
Qed.

Lemma analyze_type_from_indexes_witness :
  getAnalyzeType (Samples.newJob [] 2) = analyzeStaticPartition /\
  getAnalyzeType Samples.jobIndexesV1 = analyzeStaticPartitionIndex /\
  getAnalyzeType Samples.jobIndexesV1 = getAnalyzeType Samples.jobIndexesV2.
Proof.
  destruct analyze_type_from_indexes as (E & N & S & _).
  split; [ | split ].
  - apply E. reflexivity.
  - apply N. simpl. discriminate.
  - apply S. reflexivity.
Defined.

Lemma applyOps_ids (ops : list JobOp) :
  forall j : Job,
    StaticPartitionID (applyOps j ops) = StaticPartitionID j /\
    GlobalTableID (applyOps j ops) = GlobalTableID j.
Proof.
  unfold applyOps.
  induction ops as [|op ops IH]; intros j; simpl.
  - split; reflexivity.
  - destruct (IH (applyOp j op)) as [P G]. rewrite P, G.
    destruct op; split; reflexivity.
Qed.

(** C8: the id a job reports is the partition id it was constructed with,
    whatever the other constructor arguments are and whatever hooks,
    indicators and weights are set afterwards; it is never the id stored as
    the logical table's, unless the two ids are the same number. *)
Theorem table_id_is_partition_id
    (schema globalTableName partitionName : string)
    (globalTableID partitionID tableStatsVer lastAnalysisDuration : Z)
    (indexes : list string) (changePercentage tableSize : float)
    (ops : list JobOp) :
  let j := applyOps
             (NewStaticPartitionTableAnalysisJob schema globalTableName
                globalTableID partitionName partitionID indexes tableStatsVer
                changePercentage tableSize lastAnalysisDuration) ops in
  GetTableID j = partitionID /\
  (globalTableID <> partitionID -> GetTableID j <> GlobalTableID j).
Proof.
  intros j. unfold GetTableID.
  destruct (applyOps_ids ops
              (NewStaticPartitionTableAnalysisJob schema globalTableName
                 globalTableID partitionName partitionID indexes tableStatsVer
                 changePercentage tableSize lastAnalysisDuration)) as [P G].
  fold j in P, G. rewrite P, G. simpl. split; [reflexivity|].
  intros N E. apply N. symmetry. exact E.
Qed.

Lemma table_id_is_partition_id_witness :
  let j := applyOps (Samples.newJob ["idx1"] 2)
             [OpSetWeight 3%float; OpRegisterSuccessHook (Some 1%nat);
              OpSetIndicators (mkIndicators 0.75%float 5%float 1);
              OpRegisterFailureHook None] in
  GetTableID j = 101 /\ GetTableID j <> GlobalTableID j.
Proof.
  intros j.
  destruct (table_id_is_partition_id "test" "t" "p0" 100 101 2 60 ["idx1"]
              0.5%float 1000%float
              [OpSetWeight 3%float; OpRegisterSuccessHook (Some 1%nat);
               OpSetIndicators (mkIndicators 0.75%float 5%float 1);
               OpRegisterFailureHook None]) as [P N].
  split; [exact P | apply N; lia].
Defined.

(** C9: the whole-partition generator returns the three-placeholder template
    with schema, table and partition, the partition-index generator the
    four-placeholder template with the index name appended; both are plain
    functions of the job (and the index name) and touch no trace. *)
Theorem sql_generation (j : Job) (index : string) :
  GenSQLForAnalyzeStaticPartition j =
    ("analyze table %n.%n partition %n",
     [TableSchema j; GlobalTableName j; StaticPartitionName j]) /\
  GenSQLForAnalyzeStaticPartitionIndex j index =
    ("analyze table %n.%n partition %n index %n",
     [TableSchema j; GlobalTableName j; StaticPartitionName j; index]).
Proof. split; reflexivity. Qed.

(** ** Properties of the effectful part *)

Section Runs.

Variable poolGet : Trace -> SessionPool -> Context + string.
Variable AutoAnalyze :
  Trace -> Context -> StatsHandle -> Tracker -> Z -> string -> list string -> bool.
Variable isValidToAnalyze :
  Trace -> Context -> string -> string -> list string -> bool * string.

Variables (statsHandle : StatsHandle) (sysProcTracker : Tracker).

Lemma execAutoAnalyze_run sctx ver sql params t :
  execAutoAnalyze AutoAnalyze sctx statsHandle sysProcTracker ver sql params t =
  let ok := AutoAnalyze t sctx statsHandle sysProcTracker ver sql params in
  Some (ok, t ++ [EvAutoAnalyze sctx ver sql params ok]).
Proof. reflexivity. Qed.

Lemma callIsValidToAnalyze_run sctx schema table partitionNames t :
  callIsValidToAnalyze isValidToAnalyze sctx schema table partitionNames t =
  let r := isValidToAnalyze t sctx schema table partitionNames in
  Some (r, t ++ [EvIsValid sctx schema table partitionNames (fst r) (snd r)]).
Proof. reflexivity. Qed.

Lemma doAnalyzeStaticPartition_run j sctx t :
  doAnalyzeStaticPartition AutoAnalyze j sctx statsHandle sysProcTracker t =
  let '(sql, params) := GenSQLForAnalyzeStaticPartition j in
  let ok := AutoAnalyze t sctx statsHandle sysProcTracker (TableStatsVer j)
              sql params in
  Some (ok, t ++ [partitionStatement j sctx ok]).
Proof. reflexivity. Qed.

(** The loop issues the statements of a prefix of the list, in order; all
    are answered [true] except possibly the last, whose answer is the
    loop's result. *)
Lemma analyzeEachIndex_run j sctx indexes :
  indexes <> [] ->
  forall t, exists done index skipped ok,
    indexes = done ++ index :: skipped /\
    analyzeEachIndex AutoAnalyze j sctx statsHandle sysProcTracker indexes t =
      Some (ok, t ++ map (fun i => indexStatement j sctx i true) done
                  ++ [indexStatement j sctx index ok]) /\
    (ok = true -> skipped = []) /\
    (forall d1 i d2, done = d1 ++ i :: d2 ->
       indexAnswer AutoAnalyze
         (t ++ map (fun i => indexStatement j sctx i true) d1)
         j sctx statsHandle sysProcTracker i = true) /\
    indexAnswer AutoAnalyze
      (t ++ map (fun i => indexStatement j sctx i true) done)
      j sctx statsHandle sysProcTracker index = ok.
Proof.
  induction indexes as [|i rest IH]; intros NE t; [contradiction|].
  cbn [analyzeEachIndex GenSQLForAnalyzeStaticPartitionIndex].
  unfold bind at 1. rewrite execAutoAnalyze_run. cbv zeta.
  set (sql := "analyze table %n.%n partition %n index %n").
  set (params := [TableSchema j; GlobalTableName j; StaticPartitionName j; i]).
  destruct (AutoAnalyze t sctx statsHandle sysProcTracker (TableStatsVer j)
              sql params) eqn:A; cbn [negb].
  - destruct rest as [|i' rest'].
    + exists [], i, [], true. simpl. rewrite app_nil_r.
      repeat split; try reflexivity.
      * intros d1 i0 d2 E. destruct d1; discriminate.
      * exact A.
    + destruct (IH ltac:(discriminate)
                  (t ++ [EvAutoAnalyze sctx (TableStatsVer j) sql params true]))
        as (done & index & skipped & ok & E & R & S & D & L).
      exists (i :: done), index, skipped, ok. repeat split.
      * rewrite E. reflexivity.
      * rewrite R. rewrite <- app_assoc. reflexivity.
      * exact S.
      * intros d1 i0 d2 E1. destruct d1 as [|x d1]; simpl in E1.
        -- injection E1 as -> _. simpl. rewrite app_nil_r. exact A.
        -- injection E1 as -> ->. simpl.
           specialize (D d1 i0 d2 eq_refl).
           rewrite <- app_assoc in D. exact D.
      * simpl. rewrite <- app_assoc in L. exact L.
  - exists [], i, rest, false. simpl. rewrite app_nil_r.
    repeat split; try reflexivity.
    + discriminate.
    + intros d1 i0 d2 E. destruct d1; discriminate.
    + exact A.
Qed.

Lemma analyzeFirstIndex_run j sctx index rest t :
  Indexes j = index :: rest ->
  analyzeFirstIndex AutoAnalyze j sctx statsHandle sysProcTracker t =
  let '(sql, params) := GenSQLForAnalyzeStaticPartitionIndex j index in
  let ok := AutoAnalyze t sctx statsHandle sysProcTracker (TableStatsVer j)
              sql params in
  Some (ok, t ++ [indexStatement j sctx index ok]).
Proof.
  intros E. unfold analyzeFirstIndex. rewrite E. reflexivity.
Qed.

Lemma statementsOf_index j sctx ok (l : list string) :
  statementsOf j (map (fun i => indexStatement j sctx i ok) l).
Proof.
  induction l as [|i l IH]; constructor; [split; reflexivity | exact IH].
Qed.

Lemma statementsOf_no_hook j evs : statementsOf j evs -> hookEvents evs = [].
Proof.
  induction 1 as [|e evs [X _] _ IH]; [reflexivity|].
  simpl. destruct e; try discriminate X. exact IH.
Qed.

Lemma statementsOf_exec j evs : statementsOf j evs -> execEvents evs = evs.
Proof.
  induction 1 as [|e evs [X _] _ IH]; [reflexivity|].
  unfold execEvents in *. simpl. rewrite X, IH. reflexivity.
Qed.

(** [analyzeStaticPartitionIndexes] always returns, and what it adds to
    the trace are statements run with the job's statistics version. *)
Lemma analyzeStaticPartitionIndexes_run j sctx t :
  exists ok evs,
    analyzeStaticPartitionIndexes AutoAnalyze j sctx statsHandle
      sysProcTracker t = Some (ok, t ++ evs) /\
    statementsOf j evs.
Proof.
  destruct (Indexes j) as [|i0 rest] eqn:EI.
  - exists true, []. unfold analyzeStaticPartitionIndexes. rewrite EI.
    simpl. unfold ret. rewrite app_nil_r. split; [reflexivity | constructor].
  - destruct (Z.eq_dec (AnalyzeVersion (GetSessionVars sctx)) 1) as [V|V].
    + destruct (analyzeEachIndex_run j sctx (i0 :: rest)
                  ltac:(discriminate) t)
        as (done & index & skipped & ok & _ & R & _).
      unfold analyzeStaticPartitionIndexes. rewrite EI.
      cbn [List.length Nat.eqb]. rewrite V. cbn [Z.eqb Pos.eqb].
      eexists _, _. split; [exact R|].
      apply Forall_app. split; [apply statementsOf_index|].
      apply (statementsOf_index j sctx ok [index]).
    + unfold analyzeStaticPartitionIndexes. rewrite EI.
      cbn [List.length Nat.eqb].
      apply Z.eqb_neq in V. rewrite V.
      rewrite (analyzeFirstIndex_run j sctx i0 rest t EI).
      eexists _, _. split; [reflexivity|].
      apply (statementsOf_index j sctx _ [i0]).
Qed.

Lemma analyzeWithSession_run j sctx success t :
  exists ok evs,
    analyzeWithSession AutoAnalyze j statsHandle sysProcTracker sctx success t =
      Some ((None, ok), t ++ evs) /\
    statementsOf j evs.
Proof.
  unfold analyzeWithSession, getAnalyzeType, HasNewlyAddedIndex.
  destruct (Indexes j) as [|i0 rest] eqn:EI; cbn [List.length Nat.ltb Nat.leb].
  - change (String.eqb analyzeStaticPartition analyzeStaticPartition)
      with true. cbv iota.
    unfold bind. rewrite doAnalyzeStaticPartition_run.
    eexists _, _. split; [reflexivity|].
    constructor; [split; reflexivity | constructor].
  - change (String.eqb analyzeStaticPartitionIndex analyzeStaticPartition)
      with false.
    change (String.eqb analyzeStaticPartitionIndex analyzeStaticPartitionIndex)
      with true. cbv iota.
    destruct (analyzeStaticPartitionIndexes_run j sctx t)
      as (ok & evs & R & F).
    unfold bind. rewrite R.
    exists ok, evs. split; [reflexivity | exact F].
Qed.

(** [Analyze] up to its [return]: the error is the pool's, no hook has
    been called yet, and without a session nothing was executed and
    [success] still has its initial value. *)
Lemma analyzeBody_run j t :
  exists success evs,
    analyzeBody poolGet AutoAnalyze j statsHandle sysProcTracker t =
      Some ((poolError (poolGet t (SPool statsHandle)), success), t ++ evs) /\
    hookEvents evs = [] /\
    (forall e, poolGet t (SPool statsHandle) = inr e ->
       success = true /\ execEvents evs = []).
Proof.
  unfold analyzeBody, CallWithSCtx, bind, history.
  destruct (poolGet t (SPool statsHandle)) as [sctx|e] eqn:G.
  - cbn [emit].
    destruct (analyzeWithSession_run j sctx true
                (t ++ [EvPoolGet (SPool statsHandle) (inl sctx)]))
      as (ok & evs & R & F).
    rewrite R. cbn [emit ret poolError].
    exists ok, (EvPoolGet (SPool statsHandle) (inl sctx) :: evs
                 ++ [EvPoolPut (SPool statsHandle) sctx]).
    split; [ | split ].
    + rewrite <- !app_assoc. reflexivity.
    + unfold hookEvents. cbn [filter isHookEvent]. rewrite filter_app.
      apply statementsOf_no_hook in F. unfold hookEvents in F.
      rewrite F. reflexivity.
    + discriminate.
  - cbn [emit ret poolError].
    exists true, [EvPoolGet (SPool statsHandle) (inr e)].
    split; [reflexivity | split; [reflexivity|]].
    intros _ _. split; reflexivity.
Qed.

Lemma fireHook_run j success t :
  fireHook j success t = Some (tt, t ++ hookCalls j success).
Proof.
  unfold fireHook, hookCalls, callHook, ret, emit.
  destruct success;
    [destruct (successHook j) | destruct (failureHook j)];
    cbn [isNil negb]; rewrite ?app_nil_r; reflexivity.
Qed.

(** [Analyze] is its body followed by the hook calls of the final
    [success]. *)
Lemma Analyze_run j t :
  exists success evs,
    analyzeBody poolGet AutoAnalyze j statsHandle sysProcTracker t =
      Some ((poolError (poolGet t (SPool statsHandle)), success), t ++ evs) /\
    hookEvents evs = [] /\
    Analyze poolGet AutoAnalyze j statsHandle sysProcTracker t =
      Some (poolError (poolGet t (SPool statsHandle)),
            t ++ evs ++ hookCalls j success).
Proof.
  destruct (analyzeBody_run j t) as (success & evs & B & H & _).
  exists success, evs. split; [exact B | split; [exact H|]].
  unfold Analyze, bind. rewrite B, fireHook_run.
  unfold ret. rewrite app_assoc. reflexivity.
Qed.

(** Registering other hooks leaves the body of [Analyze] as it is. *)
Lemma analyzeEachIndex_hooks j hs hf sctx indexes :
  forall t,
    analyzeEachIndex AutoAnalyze
      (RegisterFailureHook (RegisterSuccessHook j hs) hf)
      sctx statsHandle sysProcTracker indexes t =
    analyzeEachIndex AutoAnalyze j sctx statsHandle sysProcTracker indexes t.
Proof.
  induction indexes as [|i rest IH]; intros t; [reflexivity|].
  cbn [analyzeEachIndex GenSQLForAnalyzeStaticPartitionIndex].
  unfold bind. rewrite !execAutoAnalyze_run.
  cbn [TableSchema GlobalTableName StaticPartitionName TableStatsVer
       RegisterFailureHook RegisterSuccessHook].
  cbv zeta.
  destruct (AutoAnalyze t sctx statsHandle sysProcTracker (TableStatsVer j)
              "analyze table %n.%n partition %n index %n"
              [TableSchema j; GlobalTableName j; StaticPartitionName j; i]);
    cbn [negb]; [apply IH | reflexivity].
Qed.

Lemma analyzeBody_hooks j hs hf t :
  analyzeBody poolGet AutoAnalyze
    (RegisterFailureHook (RegisterSuccessHook j hs) hf)
    statsHandle sysProcTracker t =
  analyzeBody poolGet AutoAnalyze j statsHandle sysProcTracker t.
Proof.
  unfold analyzeBody, CallWithSCtx, bind, history.
  destruct (poolGet t (SPool statsHandle)) as [sctx|e]; [|reflexivity].
  cbn [emit].
  set (t1 := t ++ [EvPoolGet (SPool statsHandle) (inl sctx)]).
  replace (analyzeWithSession AutoAnalyze
             (RegisterFailureHook (RegisterSuccessHook j hs) hf)
             statsHandle sysProcTracker sctx true t1)
    with (analyzeWithSession AutoAnalyze j statsHandle sysProcTracker
            sctx true t1); [reflexivity|].
  unfold analyzeWithSession.
  change (getAnalyzeType (RegisterFailureHook (RegisterSuccessHook j hs) hf))
    with (getAnalyzeType j).
  destruct (String.eqb (getAnalyzeType j) analyzeStaticPartition);
    [reflexivity|].
  destruct (String.eqb (getAnalyzeType j) analyzeStaticPartitionIndex);
    [|reflexivity].
  unfold bind.
  replace (analyzeStaticPartitionIndexes AutoAnalyze
             (RegisterFailureHook (RegisterSuccessHook j hs) hf)
             sctx statsHandle sysProcTracker t1)
    with (analyzeStaticPartitionIndexes AutoAnalyze j sctx statsHandle
            sysProcTracker t1); [reflexivity|].
  unfold analyzeStaticPartitionIndexes.
  change (Indexes (RegisterFailureHook (RegisterSuccessHook j hs) hf))
    with (Indexes j).
  destruct (List.length (Indexes j) =? 0)%nat; [reflexivity|].
  destruct (AnalyzeVersion (GetSessionVars sctx) =? 1).
  - symmetry. apply analyzeEachIndex_hooks.
  - reflexivity.
Qed.

(** C4: under the version-1 policy a job with a non-empty index list
    issues the statements of its indexes one by one in list order, up to and
    including the first index the executor answers [false] to; the indexes
    after it are skipped, and the result is [true] exactly when every issued
    statement was answered [true], in which case no index was skipped. *)
Theorem version1_index_policy j sctx t :
  AnalyzeVersion (GetSessionVars sctx) = 1 ->
  Indexes j <> [] ->
  exists done index skipped ok,
    Indexes j = done ++ index :: skipped /\
    analyzeStaticPartitionIndexes AutoAnalyze j sctx statsHandle
      sysProcTracker t =
      Some (ok, t ++ map (fun i => indexStatement j sctx i true) done
                  ++ [indexStatement j sctx index ok]) /\
    (forall d1 i d2, done = d1 ++ i :: d2 ->
       indexAnswer AutoAnalyze
         (t ++ map (fun i => indexStatement j sctx i true) d1)
         j sctx statsHandle sysProcTracker i = true) /\
    indexAnswer AutoAnalyze
      (t ++ map (fun i => indexStatement j sctx i true) done)
      j sctx statsHandle sysProcTracker index = ok /\
    (ok = true -> skipped = []) /\
    ok = forallb eventOk
           (map (fun i => indexStatement j sctx i true) done
              ++ [indexStatement j sctx index ok]).
Proof.
  intros V NE. unfold analyzeStaticPartitionIndexes.
  destruct (Indexes j) as [|i0 rest] eqn:EI; [contradiction|].
  cbn [List.length Nat.eqb]. rewrite V. cbn [Z.eqb Pos.eqb].
  destruct (analyzeEachIndex_run j sctx (i0 :: rest) NE t)
    as (done & index & skipped & ok & E & R & S & D & L).
  exists done, index, skipped, ok. repeat split; try assumption.
  rewrite forallb_app. simpl. rewrite andb_true_r.
  replace (forallb eventOk (map (fun i => indexStatement j sctx i true) done))
    with true; [reflexivity|].
  clear. induction done as [|d done IH]; simpl; [reflexivity | exact IH].
Qed.

(** C5: under the version-2 policy (any session version other than 1) a
    job with a non-empty index list issues exactly one statement, the one
    generated for the first index; the executor's answer to it is the
    result, and no statement generated for another index name is issued. *)
Theorem version2_index_policy j sctx index rest t :
  AnalyzeVersion (GetSessionVars sctx) <> 1 ->
  Indexes j = index :: rest ->
  let ok := indexAnswer AutoAnalyze t j sctx statsHandle sysProcTracker index in
  let issued := [indexStatement j sctx index ok] in
  analyzeStaticPartitionIndexes AutoAnalyze j sctx statsHandle
    sysProcTracker t = Some (ok, t ++ issued) /\
  execEvents issued = issued /\
  (forall i b, In i rest -> i <> index ->
     ~ In (indexStatement j sctx i b) issued).
Proof.
  intros V E ok issued. split; [ | split ].
  - unfold analyzeStaticPartitionIndexes. rewrite E.
    cbn [List.length Nat.eqb].
    apply Z.eqb_neq in V. rewrite V.
    rewrite (analyzeFirstIndex_run j sctx index rest t E). reflexivity.
  - reflexivity.
  - intros i b _ N [H|[]]. apply N.
    unfold indexStatement in H. simpl in H. congruence.
Qed.

(** C3 (amended): for a job with a non-empty index list the policy is
    chosen by the borrowed session's [AnalyzeVersion] (1 against anything
    else), whatever the job's own [TableStatsVer] is; [TableStatsVer] is
    the version every issued statement hands to the executor. *)
Theorem index_policy_follows_session j sctx t :
  Indexes j <> [] ->
  analyzeStaticPartitionIndexes AutoAnalyze j sctx statsHandle
    sysProcTracker t =
    (if AnalyzeVersion (GetSessionVars sctx) =? 1
     then analyzeEachIndex AutoAnalyze j sctx statsHandle sysProcTracker
            (Indexes j) t
     else analyzeFirstIndex AutoAnalyze j sctx statsHandle sysProcTracker t) /\
  exists ok evs,
    analyzeStaticPartitionIndexes AutoAnalyze j sctx statsHandle
      sysProcTracker t = Some (ok, t ++ evs) /\
    statementsOf j evs.
Proof.
  intros NE. split.
  - unfold analyzeStaticPartitionIndexes.
    destruct (Indexes j) as [|i0 rest]; [contradiction|].
    cbn [List.length Nat.eqb].
    destruct (AnalyzeVersion (GetSessionVars sctx) =? 1); reflexivity.
  - apply analyzeStaticPartitionIndexes_run.
Qed.

(** C1 (amended): [Analyze] always returns, and what it returns is the
    error of the pool's wrapper: [nil] whenever the pool lends a session,
    whatever the executor answers, and the pool's own error when it has no
    session, in which case no statement is executed. *)
Theorem analyze_returns_pool_error j t :
  (forall sctx, poolGet t (SPool statsHandle) = inl sctx ->
     exists evs,
       Analyze poolGet AutoAnalyze j statsHandle sysProcTracker t =
         Some (None, t ++ evs)) /\
  (forall e, poolGet t (SPool statsHandle) = inr e ->
     exists evs,
       Analyze poolGet AutoAnalyze j statsHandle sysProcTracker t =
         Some (Some e, t ++ evs) /\
       execEvents evs = []).
Proof.
  destruct (analyzeBody_run j t) as (success & evs & B & H & P).
  assert (R : Analyze poolGet AutoAnalyze j statsHandle sysProcTracker t =
              Some (poolError (poolGet t (SPool statsHandle)),
                    t ++ evs ++ hookCalls j success)).
  { unfold Analyze, bind. rewrite B, fireHook_run.
    unfold ret. rewrite app_assoc. reflexivity. }
  split.
  - intros sctx G. rewrite G in R. eexists. exact R.
  - intros e G. rewrite G in R. eexists. split; [exact R|].
    destruct (P e G) as [_ X].
    unfold execEvents in *. rewrite filter_app, X.
    unfold hookCalls.
    destruct (if success then successHook j else failureHook j); reflexivity.
Qed.

(** C2: when both hooks are registered, [Analyze] calls no hook before its
    [return] and then exactly one, once: the success hook when the final
    [success] is [true], the failure hook when it is [false]. *)
Theorem exactly_one_hook j hs hf t :
  successHook j = Some hs ->
  failureHook j = Some hf ->
  exists err success evs,
    analyzeBody poolGet AutoAnalyze j statsHandle sysProcTracker t =
      Some ((err, success), t ++ evs) /\
    hookEvents evs = [] /\
    Analyze poolGet AutoAnalyze j statsHandle sysProcTracker t =
      Some (err, t ++ evs ++ [EvHook (if success then hs else hf) j]) /\
    hookEvents (evs ++ [EvHook (if success then hs else hf) j]) =
      [EvHook (if success then hs else hf) j].
Proof.
  intros S F.
  destruct (Analyze_run j t) as (success & evs & B & H & R).
  exists (poolError (poolGet t (SPool statsHandle))), success, evs.
  assert (C : hookCalls j success = [EvHook (if success then hs else hf) j]).
  { unfold hookCalls. destruct success; [rewrite S | rewrite F]; reflexivity. }
  rewrite C in R.
  repeat split; try assumption.
  unfold hookEvents in *. rewrite filter_app, H. reflexivity.
Qed.

(** C6: with an empty partition name the validity check answers
    [(true, "")] and leaves the trace as it is (the predicate is not asked);
    with a partition name, a negative answer of the predicate and a
    registered failure hook, it asks the predicate, calls the failure hook
    once, executes nothing and returns [false] with the predicate's
    reason. *)
Theorem validity_check j sctx t :
  (StaticPartitionName j = "" ->
     IsValidToAnalyze isValidToAnalyze j sctx t = Some ((true, ""), t)) /\
  (forall reason hf,
     StaticPartitionName j <> "" ->
     isValidToAnalyze t sctx (TableSchema j) (GlobalTableName j)
       [StaticPartitionName j] = (false, reason) ->
     failureHook j = Some hf ->
     IsValidToAnalyze isValidToAnalyze j sctx t =
       Some ((false, reason),
             t ++ [EvIsValid sctx (TableSchema j) (GlobalTableName j)
                     [StaticPartitionName j] false reason;
                   EvHook hf j])).
Proof.
  unfold IsValidToAnalyze. split.
  - intros E. rewrite E. reflexivity.
  - intros reason hf NE V F.
    apply String.eqb_neq in NE. rewrite NE. cbn [negb].
    unfold bind. rewrite callIsValidToAnalyze_run, V.
    cbn [fst snd ret negb]. rewrite F.
    cbn [isNil negb callHook emit]. rewrite <- app_assoc. reflexivity.
Qed.

(** C10: hooks are optional.  On any job, registered hooks or not,
    [Analyze] and [IsValidToAnalyze] return without a fault; registering
    other hooks (or none) changes neither what they return nor their other
    interactions; a hook that is nil is not called. *)
Theorem hooks_are_optional j hs hf sctx t :
  let j' := RegisterFailureHook (RegisterSuccessHook j hs) hf in
  exists (err : error) (success : bool) (evs : Trace)
         (valid : bool) (reason : string) (vevs : Trace),
    Analyze poolGet AutoAnalyze j statsHandle sysProcTracker t =
      Some (err, t ++ evs ++ hookCalls j success) /\
    Analyze poolGet AutoAnalyze j' statsHandle sysProcTracker t =
      Some (err, t ++ evs ++ hookCalls j' success) /\
    hookEvents evs = [] /\
    IsValidToAnalyze isValidToAnalyze j sctx t =
      Some ((valid, reason),
            t ++ vevs ++ (if valid then [] else hookCalls j false)) /\
    IsValidToAnalyze isValidToAnalyze j' sctx t =
      Some ((valid, reason),
            t ++ vevs ++ (if valid then [] else hookCalls j' false)) /\
    hookEvents vevs = [] /\
    (successHook j = None -> hookCalls j true = []) /\
    (failureHook j = None -> hookCalls j false = []).
Proof.
  intros j'.
  destruct (Analyze_run j t) as (success & evs & B & H & R).
  destruct (Analyze_run j' t) as (success' & evs' & B' & _ & R').
  unfold j' in B'. rewrite analyzeBody_hooks, B in B'.
  injection B' as <- E'. apply app_inv_head in E'. subst evs'.
  exists (poolError (poolGet t (SPool statsHandle))), success, evs.
  assert (V : exists (valid : bool) (reason : string) (vevs : Trace),
    IsValidToAnalyze isValidToAnalyze j sctx t =
      Some ((valid, reason),
            t ++ vevs ++ (if valid then [] else hookCalls j false)) /\
    IsValidToAnalyze isValidToAnalyze j' sctx t =
      Some ((valid, reason),
            t ++ vevs ++ (if valid then [] else hookCalls j' false)) /\
    hookEvents vevs = []).
  { unfold IsValidToAnalyze, j'.
    cbn [StaticPartitionName TableSchema GlobalTableName failureHook
         RegisterFailureHook RegisterSuccessHook].
    destruct (String.eqb (StaticPartitionName j) ""); cbn [negb].
    - exists true, "", []. rewrite app_nil_r.
      repeat split; reflexivity.
    - unfold bind. rewrite !callIsValidToAnalyze_run.
      destruct (isValidToAnalyze t sctx (TableSchema j) (GlobalTableName j)
                  [StaticPartitionName j]) as [valid reason].
      cbn [fst snd ret].
      destruct valid; cbn [negb].
      + exists true, "",
          [EvIsValid sctx (TableSchema j) (GlobalTableName j)
             [StaticPartitionName j] true reason].
        rewrite app_nil_r. repeat split; reflexivity.
      + exists false, reason,
          [EvIsValid sctx (TableSchema j) (GlobalTableName j)
             [StaticPartitionName j] false reason].
        unfold hookCalls, ret.
        cbn [failureHook RegisterFailureHook RegisterSuccessHook].
        destruct (failureHook j), hf; cbn [isNil negb callHook emit panic];
          rewrite <- ?app_assoc, ?app_nil_r; repeat split; reflexivity. }
  destruct V as (valid & reason & vevs & V1 & V2 & V3).
  exists valid, reason, vevs.
  repeat split; try assumption.
  - intros N. unfold hookCalls. rewrite N. reflexivity.
  - intros N. unfold hookCalls. rewrite N. reflexivity.
Qed.

End Runs.

(** ** The properties at sample inputs *)

(** Version-1 session, indexes idx1, idx2, idx3, the executor failing on
    idx2: two statements, result [false], idx3 skipped. *)
Lemma version1_index_policy_witness :
  AnalyzeVersion (GetSessionVars Samples.sctxV1) = 1 /\
  Indexes Samples.jobIndexesV1 <> [] /\
  exists done index skipped ok,
    Indexes Samples.jobIndexesV1 = done ++ index :: skipped /\
    analyzeStaticPartitionIndexes (Samples.execFailsOn "idx2")
      Samples.jobIndexesV1 Samples.sctxV1 Samples.handle Samples.tracker [] =
      Some (ok, [] ++ map (fun i => indexStatement Samples.jobIndexesV1
                                      Samples.sctxV1 i true) done
                   ++ [indexStatement Samples.jobIndexesV1 Samples.sctxV1
                         index ok]) /\
    (ok = true -> skipped = []).
Proof.
  assert (V : AnalyzeVersion (GetSessionVars Samples.sctxV1) = 1)
    by reflexivity.
  assert (NE : Indexes Samples.jobIndexesV1 <> []) by (simpl; discriminate).
  split; [exact V | split; [exact NE|]].
  destruct (version1_index_policy (Samples.execFailsOn "idx2") Samples.handle
              Samples.tracker Samples.jobIndexesV1 Samples.sctxV1 [] V NE)
    as (done & index & skipped & ok & E & R & _ & _ & S & _).
  exists done, index, skipped, ok. split; [exact E | split; [exact R | exact S]].
Defined.

Lemma version2_index_policy_witness :
  AnalyzeVersion (GetSessionVars Samples.sctxV2) <> 1 /\
  analyzeStaticPartitionIndexes (Samples.execAnswers true)
    Samples.jobIndexesV2 Samples.sctxV2 Samples.handle Samples.tracker [] =
    Some (true, [indexStatement Samples.jobIndexesV2 Samples.sctxV2 "idx1" true]) /\
  ~ In (indexStatement Samples.jobIndexesV2 Samples.sctxV2 "idx3" true)
       [indexStatement Samples.jobIndexesV2 Samples.sctxV2 "idx1" true].
Proof.
  assert (V : AnalyzeVersion (GetSessionVars Samples.sctxV2) <> 1)
    by (simpl; lia).
  split; [exact V|].
  destruct (version2_index_policy (Samples.execAnswers true) Samples.handle
              Samples.tracker Samples.jobIndexesV2 Samples.sctxV2
              "idx1" ["idx2"; "idx3"] [] V eq_refl) as (R & _ & N).
  split; [exact R|].
  apply (N "idx3" true); [simpl; tauto | discriminate].
Defined.

(** Counterexample to C3 as worded (the job's own version field choosing
    the policy): a job whose [TableStatsVer] is 1, run on a session whose
    [AnalyzeVersion] is 2, issues the statement of its first index only, and
    a job whose [TableStatsVer] is 2, run on a session whose [AnalyzeVersion]
    is 1, issues one statement per index. *)
Lemma index_policy_counterexample :
  TableStatsVer Samples.jobIndexesV1 = 1 /\
  analyzeStaticPartitionIndexes (Samples.execAnswers true)
    Samples.jobIndexesV1 Samples.sctxV2 Samples.handle Samples.tracker [] =
    Some (true, [indexStatement Samples.jobIndexesV1 Samples.sctxV2 "idx1" true]) /\
  TableStatsVer Samples.jobIndexesV2 = 2 /\
  analyzeStaticPartitionIndexes (Samples.execAnswers true)
    Samples.jobIndexesV2 Samples.sctxV1 Samples.handle Samples.tracker [] =
    Some (true, [indexStatement Samples.jobIndexesV2 Samples.sctxV1 "idx1" true;
                 indexStatement Samples.jobIndexesV2 Samples.sctxV1 "idx2" true;
                 indexStatement Samples.jobIndexesV2 Samples.sctxV1 "idx3" true]) /\
  ~ (forall AutoAnalyze (j : Job) sctx statsHandle sysProcTracker t,
       Indexes j <> [] ->
       (TableStatsVer j = 1 ->
        analyzeStaticPartitionIndexes AutoAnalyze j sctx statsHandle
          sysProcTracker t =
        analyzeEachIndex AutoAnalyze j sctx statsHandle sysProcTracker
          (Indexes j) t) /\
       (2 <= TableStatsVer j ->
        analyzeStaticPartitionIndexes AutoAnalyze j sctx statsHandle
          sysProcTracker t =
        analyzeFirstIndex AutoAnalyze j sctx statsHandle sysProcTracker t)).
Proof.
  repeat split.
  intros H.
  destruct (H (Samples.execAnswers true) Samples.jobIndexesV1 Samples.sctxV2
              Samples.handle Samples.tracker [] ltac:(discriminate))
    as [V1 _].
  specialize (V1 eq_refl). discriminate V1.
Qed.

Lemma index_policy_follows_session_witness :
  Indexes Samples.jobIndexesV1 <> [] /\
  analyzeStaticPartitionIndexes (Samples.execAnswers true)
    Samples.jobIndexesV1 Samples.sctxV2 Samples.handle Samples.tracker [] =
  analyzeFirstIndex (Samples.execAnswers true)
    Samples.jobIndexesV1 Samples.sctxV2 Samples.handle Samples.tracker [].
Proof.
  assert (NE : Indexes Samples.jobIndexesV1 <> []) by (simpl; discriminate).
  split; [exact NE|].
  exact (proj1 (index_policy_follows_session (Samples.execAnswers true)
                  Samples.handle Samples.tracker Samples.jobIndexesV1
                  Samples.sctxV2 [] NE)).
Defined.

(** Counterexample to C1 as worded (a [nil] error on every call, the
    failure hook on a pool failure): when the pool has no session, [Analyze]
    returns the pool's error, and the one hook it calls is the success hook
    (1), not the failure hook (2). *)
Lemma analyze_pool_failure_counterexample :
  successHook Samples.jobPartition = Some 1%nat /\
  failureHook Samples.jobPartition = Some 2%nat /\
  Analyze Samples.poolEmpty (Samples.execAnswers true) Samples.jobPartition
    Samples.handle Samples.tracker [] =
    Some (Some "no session available",
          [EvPoolGet 0%nat (inr "no session available");
           EvHook 1%nat Samples.jobPartition]) /\
  ~ (forall poolGet AutoAnalyze (j : Job) statsHandle sysProcTracker t,
       exists t',
         Analyze poolGet AutoAnalyze j statsHandle sysProcTracker t =
           Some (None, t') /\
         forall e hf, poolGet t (SPool statsHandle) = inr e ->
                      failureHook j = Some hf -> In (EvHook hf j) t').
Proof.
  repeat split.
  intros H.
  destruct (H Samples.poolEmpty (Samples.execAnswers true)
              Samples.jobPartition Samples.handle Samples.tracker [])
    as (t' & R & _).
  discriminate R.
Qed.

Lemma analyze_returns_pool_error_witness :
  (exists evs,
     Analyze (Samples.poolLends Samples.sctxV2) (Samples.execAnswers false)
       Samples.jobPartition Samples.handle Samples.tracker [] =
       Some (None, [] ++ evs)) /\
  (exists evs,
     Analyze Samples.poolEmpty (Samples.execAnswers false)
       Samples.jobPartition Samples.handle Samples.tracker [] =
       Some (Some "no session available", [] ++ evs) /\
     execEvents evs = []).
Proof.
  split.
  - exact (proj1 (analyze_returns_pool_error
                    (Samples.poolLends Samples.sctxV2)
                    (Samples.execAnswers false) Samples.handle Samples.tracker
                    Samples.jobPartition [])
                 Samples.sctxV2 eq_refl).
  - exact (proj2 (analyze_returns_pool_error Samples.poolEmpty
                    (Samples.execAnswers false) Samples.handle Samples.tracker
                    Samples.jobPartition [])
                 "no session available" eq_refl).
Defined.

Lemma exactly_one_hook_witness :
  successHook Samples.jobIndexesV1 = Some 1%nat /\
  failureHook Samples.jobIndexesV1 = Some 2%nat /\
  exists (err : error) (success : bool) (evs : Trace),
    hookEvents evs = [] /\
    Analyze (Samples.poolLends Samples.sctxV1) (Samples.execFailsOn "idx1")
      Samples.jobIndexesV1 Samples.handle Samples.tracker [] =
      Some (err, [] ++ evs ++
                 [EvHook (if success then 1%nat else 2%nat) Samples.jobIndexesV1]).
Proof.
  split; [reflexivity | split; [reflexivity|]].
  destruct (exactly_one_hook (Samples.poolLends Samples.sctxV1)
              (Samples.execFailsOn "idx1") Samples.handle Samples.tracker
              Samples.jobIndexesV1 1%nat 2%nat [] eq_refl eq_refl)
    as (err & success & evs & _ & H & R & _).
  exists err, success, evs. split; [exact H | exact R].
Defined.

Lemma validity_check_witness :
  IsValidToAnalyze (Samples.validNo "locked")
    (Samples.withHooks
       (NewStaticPartitionTableAnalysisJob "test" "t" 100 "" 101 [] 2
          0.5%float 1000%float 60))
    Samples.sctxV2 [] = Some ((true, ""), []) /\
  IsValidToAnalyze (Samples.validNo "locked") Samples.jobPartition
    Samples.sctxV2 [] =
    Some ((false, "locked"),
          [EvIsValid Samples.sctxV2 "test" "t" ["p0"] false "locked";
           EvHook 2%nat Samples.jobPartition]).
Proof.
  split.
  - apply (proj1 (validity_check (Samples.validNo "locked")
                    (Samples.withHooks
                       (NewStaticPartitionTableAnalysisJob "test" "t" 100 ""
                          101 [] 2 0.5%float 1000%float 60))
                    Samples.sctxV2 [])).
    reflexivity.
  - apply (proj2 (validity_check (Samples.validNo "locked")
                    Samples.jobPartition Samples.sctxV2 [])
                 "locked" 2%nat).
    + simpl. discriminate.
    + reflexivity.
    + reflexivity.
Defined.

Lemma hooks_are_optional_witness :
  successHook (Samples.newJob [] 2) = None /\
  failureHook (Samples.newJob [] 2) = None /\
  hookCalls (Samples.newJob [] 2) true = [] /\
  hookCalls (Samples.newJob [] 2) false = [] /\
  exists err t1 t2,
    Analyze Samples.poolEmpty (Samples.execAnswers false)
      (Samples.newJob [] 2) Samples.handle Samples.tracker [] = Some (err, t1) /\
    Analyze Samples.poolEmpty (Samples.execAnswers false)
      Samples.jobPartition Samples.handle Samples.tracker [] = Some (err, t2).
Proof.
  destruct (hooks_are_optional Samples.poolEmpty (Samples.execAnswers false)
              (Samples.validNo "locked") Samples.handle Samples.tracker
              (Samples.newJob [] 2) (Some 1%nat) (Some 2%nat) Samples.sctxV2 [])
    as (err & success & evs & valid & reason & vevs &
        A1 & A2 & _ & _ & _ & _ & S & F).
  split; [reflexivity | split; [reflexivity|]].
  split; [exact (S eq_refl) | split; [exact (F eq_refl)|]].
  eexists err, _, _. split; [exact A1 | exact A2].
Defined.


(** ** Further properties: dispatch, validity, setters *)

Section Dispatch.

Variable poolGet : Trace -> SessionPool -> Context + string.
Variable AutoAnalyze :
  Trace -> Context -> StatsHandle -> Tracker -> Z -> string -> list string -> bool.
Variable isValidToAnalyze :
  Trace -> Context -> string -> string -> list string -> bool * string.

Variables (statsHandle : StatsHandle) (sysProcTracker : Tracker).

Lemma Analyze_of_body j t err success t' :
  analyzeBody poolGet AutoAnalyze j statsHandle sysProcTracker t =
    Some ((err, success), t') ->
  Analyze poolGet AutoAnalyze j statsHandle sysProcTracker t =
    Some (err, t' ++ hookCalls j success).
Proof.
  intros B. unfold Analyze, bind. rewrite B, fireHook_run. reflexivity.
Qed.

Lemma analyzeBody_session j t sctx ok evs :
  poolGet t (SPool statsHandle) = inl sctx ->
  analyzeWithSession AutoAnalyze j statsHandle sysProcTracker sctx true
    (t ++ [EvPoolGet (SPool statsHandle) (inl sctx)]) =
    Some ((None, ok), (t ++ [EvPoolGet (SPool statsHandle) (inl sctx)]) ++ evs) ->
  analyzeBody poolGet AutoAnalyze j statsHandle sysProcTracker t =
    Some ((None, ok),
          t ++ EvPoolGet (SPool statsHandle) (inl sctx) :: evs
            ++ [EvPoolPut (SPool statsHandle) sctx]).
Proof.
  intros G R. unfold analyzeBody, CallWithSCtx, bind, history.
  rewrite G. cbn [emit]. rewrite R. cbn [emit ret].
  rewrite <- !app_assoc. reflexivity.
Qed.

(** With a session, the closure of [Analyze] runs statements of the job on
    that session: at least one, at most one per index, and exactly one when
    the session's version is not 1. *)
Lemma analyzeWithSession_statements j sctx success t :
  exists ok evs,
    analyzeWithSession AutoAnalyze j statsHandle sysProcTracker sctx success t =
      Some ((None, ok), t ++ evs) /\
    Forall (statementFor j sctx) evs /\
    (1 <= List.length evs <= Nat.max 1 (List.length (Indexes j)))%nat /\
    (AnalyzeVersion (GetSessionVars sctx) <> 1 -> List.length evs = 1%nat).
Proof.
  unfold analyzeWithSession, getAnalyzeType, HasNewlyAddedIndex.
  destruct (Indexes j) as [|i0 rest] eqn:EI; cbn [List.length Nat.ltb Nat.leb].
  - change (String.eqb analyzeStaticPartition analyzeStaticPartition)
      with true. cbv iota.
    unfold bind. rewrite doAnalyzeStaticPartition_run.
    eexists _, _. split; [reflexivity|]. split; [|split].
    + constructor; [|constructor]. left. split; [exact EI|].
      eexists. reflexivity.
    + simpl. lia.
    + reflexivity.
  - change (String.eqb analyzeStaticPartitionIndex analyzeStaticPartition)
      with false.
    change (String.eqb analyzeStaticPartitionIndex analyzeStaticPartitionIndex)
      with true. cbv iota.
    unfold bind, analyzeStaticPartitionIndexes. rewrite EI.
    cbn [List.length Nat.eqb].
    destruct (Z.eq_dec (AnalyzeVersion (GetSessionVars sctx)) 1) as [V|V].
    + rewrite V. cbn [Z.eqb Pos.eqb].
      destruct (analyzeEachIndex_run AutoAnalyze statsHandle sysProcTracker
                  j sctx (i0 :: rest) ltac:(discriminate) t)
        as (done & index & skipped & ok & E & R & _).
      rewrite R. eexists _, _. split; [reflexivity|]. split; [|split].
      * apply Forall_app. split.
        -- apply Forall_forall. intros e I. apply in_map_iff in I.
           destruct I as (i & <- & I). right. exists i, true.
           split; [|reflexivity]. rewrite EI, E. apply in_or_app. left. exact I.
        -- constructor; [|constructor]. right. exists index, ok.
           split; [|reflexivity]. rewrite EI, E. apply in_or_app. right. left.
           reflexivity.
      * rewrite length_app, length_map. cbn [List.length].
        assert (L : List.length (i0 :: rest) =
                    (List.length done + S (List.length skipped))%nat).
        { rewrite E, length_app. reflexivity. }
        cbn [List.length] in L. lia.
      * intros N. contradiction.
    + apply Z.eqb_neq in V. rewrite V.
      rewrite (analyzeFirstIndex_run AutoAnalyze statsHandle sysProcTracker
                 j sctx i0 rest t EI).
      eexists _, _. split; [reflexivity|]. split; [|split].
      * constructor; [|constructor]. right. eexists i0, _.
        split; [rewrite EI; left; reflexivity | reflexivity].
      * simpl. lia.
      * reflexivity.
Qed.

Lemma statementFor_exec j sctx e :
  statementFor j sctx e -> isExecEvent e = true.
Proof.
  intros [(_ & ok & ->) | (i & ok & _ & ->)]; reflexivity.
Qed.

Lemma hookCalls_entries j pool got success :
  Forall (analyzeEntry j pool got) (hookCalls j success) /\
  execEvents (hookCalls j success) = [].
Proof.
  unfold hookCalls.
  destruct success.
  - destruct (successHook j) as [f|] eqn:S; split; try reflexivity;
      constructor; [|constructor]. split; [reflexivity | left; exact S].
  - destruct (failureHook j) as [f|] eqn:F; split; try reflexivity;
      constructor; [|constructor]. split; [reflexivity | right; exact F].
Qed.

(** The whole trace of an [Analyze] call, by the pool's answer. *)
Lemma Analyze_trace j t :
  match poolGet t (SPool statsHandle) with
  | inl sctx =>
      exists ok stm,
        Analyze poolGet AutoAnalyze j statsHandle sysProcTracker t =
          Some (None,
                t ++ (EvPoolGet (SPool statsHandle) (inl sctx) :: stm
                        ++ [EvPoolPut (SPool statsHandle) sctx])
                  ++ hookCalls j ok) /\
        Forall (statementFor j sctx) stm /\
        (1 <= List.length stm <= Nat.max 1 (List.length (Indexes j)))%nat /\
        (AnalyzeVersion (GetSessionVars sctx) <> 1 ->
         List.length stm = 1%nat)
  | inr e =>
      Analyze poolGet AutoAnalyze j statsHandle sysProcTracker t =
        Some (Some e,
              t ++ [EvPoolGet (SPool statsHandle) (inr e)] ++ hookCalls j true)
  end.
Proof.
  destruct (poolGet t (SPool statsHandle)) as [sctx|e] eqn:G.
  - destruct (analyzeWithSession_statements j sctx true
                (t ++ [EvPoolGet (SPool statsHandle) (inl sctx)]))
      as (ok & stm & R & F & B & O).
    exists ok, stm. split; [|split; [exact F | split; [exact B | exact O]]].
    rewrite (Analyze_of_body j t None ok _
               (analyzeBody_session j t sctx ok stm G R)).
    rewrite <- app_assoc. reflexivity.
  - rewrite (Analyze_of_body j t (Some e) true
               (t ++ [EvPoolGet (SPool statsHandle) (inr e)])).
    + rewrite <- app_assoc. reflexivity.
    + unfold analyzeBody, CallWithSCtx, bind, history. rewrite G. reflexivity.
Qed.

Lemma execEvents_statements j sctx stm :
  Forall (statementFor j sctx) stm -> execEvents stm = stm.
Proof.
  induction 1 as [|e stm X _ IH]; [reflexivity|].
  unfold execEvents in *. simpl.
  rewrite (statementFor_exec j sctx e X), IH. reflexivity.
Qed.

(** X1: a job without newly added indexes, given a session by the pool,
    runs the one whole-partition statement on that session with its own
    statistics version, between the borrow and the release of the session;
    [Analyze] returns nil and afterwards calls the success hook when the
    executor answered [true], the failure hook when it answered [false]. *)
Theorem analyze_whole_partition j sctx t :
  Indexes j = [] ->
  poolGet t (SPool statsHandle) = inl sctx ->
  let got := EvPoolGet (SPool statsHandle) (inl sctx) in
  let sql := "analyze table %n.%n partition %n" in
  let params := [TableSchema j; GlobalTableName j; StaticPartitionName j] in
  let ok := AutoAnalyze (t ++ [got]) sctx statsHandle sysProcTracker
              (TableStatsVer j) sql params in
  Analyze poolGet AutoAnalyze j statsHandle sysProcTracker t =
    Some (None,
          t ++ [got; EvAutoAnalyze sctx (TableStatsVer j) sql params ok;
                EvPoolPut (SPool statsHandle) sctx]
            ++ hookCalls j ok).
Proof.
  intros E G got sql params ok.
  rewrite (Analyze_of_body j t None ok
             (t ++ [got; EvAutoAnalyze sctx (TableStatsVer j) sql params ok;
                    EvPoolPut (SPool statsHandle) sctx])).
  - rewrite <- app_assoc. reflexivity.
  - apply (analyzeBody_session j t sctx ok
             [EvAutoAnalyze sctx (TableStatsVer j) sql params ok] G).
    unfold analyzeWithSession, getAnalyzeType, HasNewlyAddedIndex.
    rewrite E. cbn [List.length Nat.ltb Nat.leb].
    change (String.eqb analyzeStaticPartition analyzeStaticPartition)
      with true. cbv iota.
    unfold bind. rewrite doAnalyzeStaticPartition_run. reflexivity.
Qed.

(** X2: how many statements one [Analyze] call executes.  Without a session
    none; with a session at least one (the empty-index guard is never taken
    through [Analyze]) and at most one per index, and exactly one when the
    session's analyze version is not 1. *)
Theorem analyze_statement_count j t :
  exists err evs,
    Analyze poolGet AutoAnalyze j statsHandle sysProcTracker t =
      Some (err, t ++ evs) /\
    match poolGet t (SPool statsHandle) with
    | inl sctx =>
        (1 <= List.length (execEvents evs)
           <= Nat.max 1 (List.length (Indexes j)))%nat /\
        (AnalyzeVersion (GetSessionVars sctx) <> 1 ->
         List.length (execEvents evs) = 1%nat)
    | inr _ => execEvents evs = []
    end.
Proof.
  pose proof (Analyze_trace j t) as T.
  destruct (poolGet t (SPool statsHandle)) as [sctx|e].
  - destruct T as (ok & stm & R & F & B & O).
    eexists _, _. split; [exact R|].
    assert (X : execEvents
                  ((EvPoolGet (SPool statsHandle) (inl sctx) :: stm
                      ++ [EvPoolPut (SPool statsHandle) sctx])
                     ++ hookCalls j ok) = stm).
    { unfold execEvents. rewrite filter_app.
      cbn [filter isExecEvent]. rewrite filter_app.
      cbn [filter isExecEvent].
      pose proof (execEvents_statements j sctx stm F) as S.
      pose proof (proj2 (hookCalls_entries j (SPool statsHandle)
                           (inl sctx) ok)) as H.
      unfold execEvents in S, H. rewrite S, H, !app_nil_r. reflexivity. }
    rewrite X. split; [exact B | exact O].
  - eexists _, _. split; [exact T|].
    unfold execEvents. rewrite filter_app. cbn [filter isExecEvent].
    apply (proj2 (hookCalls_entries j (SPool statsHandle) (inr e) true)).
Qed.

(** X3: what [Analyze] never does.  Everything one call adds to the trace is
    the pool's answer, the release of the session the pool lent, a statement
    of this job (its own schema, table, partition, statistics version and
    one of its own indexes) run on that session, or a call of one of the
    job's registered hooks on the job itself; the validity predicate is
    never asked. *)
Theorem analyze_interactions j t :
  exists err evs,
    Analyze poolGet AutoAnalyze j statsHandle sysProcTracker t =
      Some (err, t ++ evs) /\
    Forall (analyzeEntry j (SPool statsHandle)
              (poolGet t (SPool statsHandle))) evs.
Proof.
  pose proof (Analyze_trace j t) as T.
  destruct (poolGet t (SPool statsHandle)) as [sctx|e].
  - destruct T as (ok & stm & R & F & _).
    eexists _, _. split; [exact R|].
    apply Forall_app. split; [|apply hookCalls_entries].
    constructor; [split; reflexivity|].
    apply Forall_app. split.
    + apply Forall_forall. intros ev I.
      pose proof (proj1 (Forall_forall _ _) F ev I) as X.
      assert (Y := X).
      destruct X as [(_ & ok' & ->) | (i & ok' & _ & ->)];
        exists sctx; split; try reflexivity; exact Y.
    + constructor; [split; reflexivity | constructor].
  - eexists _, _. split; [exact T|].
    apply Forall_app. split; [|apply hookCalls_entries].
    constructor; [split; reflexivity | constructor].
Qed.

Lemma analyzeEachIndex_all_true j sctx indexes :
  forall t,
    (forall t' i, In i indexes ->
       indexAnswer AutoAnalyze t' j sctx statsHandle sysProcTracker i = true) ->
    analyzeEachIndex AutoAnalyze j sctx statsHandle sysProcTracker indexes t =
      Some (true, t ++ map (fun i => indexStatement j sctx i true) indexes).
Proof.
  induction indexes as [|i rest IH]; intros t A.
  - simpl. unfold ret. rewrite app_nil_r. reflexivity.
  - cbn [analyzeEachIndex GenSQLForAnalyzeStaticPartitionIndex].
    unfold bind at 1. rewrite execAutoAnalyze_run. cbv zeta.
    pose proof (A t i (or_introl eq_refl)) as Ai.
    unfold indexAnswer, GenSQLForAnalyzeStaticPartitionIndex in Ai.
    rewrite Ai. cbn [negb].
    rewrite IH.
    + cbn [map]. rewrite <- app_assoc. reflexivity.
    + intros t' i' I. apply A. right. exact I.
Qed.

(** X4: on a version-1 session, when the executor answers [true] to the
    statement of every index of the job, the job runs exactly one statement
    per index, in list order, and the result is [true]. *)
Theorem version1_all_succeed j sctx t :
  AnalyzeVersion (GetSessionVars sctx) = 1 ->
  (forall t' i, In i (Indexes j) ->
     indexAnswer AutoAnalyze t' j sctx statsHandle sysProcTracker i = true) ->
  analyzeStaticPartitionIndexes AutoAnalyze j sctx statsHandle
    sysProcTracker t =
    Some (true, t ++ map (fun i => indexStatement j sctx i true) (Indexes j)).
Proof.
  intros V A. unfold analyzeStaticPartitionIndexes.
  destruct (Indexes j) as [|i0 rest] eqn:EI.
  - simpl. unfold ret. rewrite app_nil_r. reflexivity.
  - cbn [List.length Nat.eqb]. rewrite V. cbn [Z.eqb Pos.eqb].
    apply analyzeEachIndex_all_true. exact A.
Qed.

(** X5: [analyzeStaticPartitionIndexes] returns on every job and session,
    and it runs no statement exactly when the index list is empty, in which
    case the result is [true] whatever the session's version. *)
Theorem no_statement_iff_no_index j sctx t :
  exists ok evs,
    analyzeStaticPartitionIndexes AutoAnalyze j sctx statsHandle
      sysProcTracker t = Some (ok, t ++ evs) /\
    (evs = [] <-> Indexes j = []) /\
    (Indexes j = [] -> ok = true).
Proof.
  unfold analyzeStaticPartitionIndexes.
  destruct (Indexes j) as [|i0 rest] eqn:EI; cbn [List.length Nat.eqb].
  - exists true, []. unfold ret. rewrite app_nil_r.
    repeat split; reflexivity.
  - destruct (AnalyzeVersion (GetSessionVars sctx) =? 1).
    + destruct (analyzeEachIndex_run AutoAnalyze statsHandle sysProcTracker
                  j sctx (i0 :: rest) ltac:(discriminate) t)
        as (done & index & skipped & ok & _ & R & _).
      eexists _, _. split; [exact R|].
      split; [split|]; intros X; try discriminate X.
      destruct done; discriminate X.
    + rewrite (analyzeFirstIndex_run AutoAnalyze statsHandle sysProcTracker
                 j sctx i0 rest t EI).
      eexists _, _. split; [reflexivity|].
      split; [split|]; intros X; discriminate X.
Qed.

(** X6: a job with a single newly added index runs the statement of that
    index, once, and returns the executor's answer, whatever the session's
    analyze version is: the two policies agree on one index. *)
Theorem single_index_any_version j sctx index t :
  Indexes j = [index] ->
  let ok := indexAnswer AutoAnalyze t j sctx statsHandle sysProcTracker index in
  analyzeStaticPartitionIndexes AutoAnalyze j sctx statsHandle
    sysProcTracker t = Some (ok, t ++ [indexStatement j sctx index ok]).
Proof.
  intros E ok. unfold analyzeStaticPartitionIndexes. rewrite E.
  cbn [List.length Nat.eqb].
  destruct (AnalyzeVersion (GetSessionVars sctx) =? 1).
  - cbn [analyzeEachIndex GenSQLForAnalyzeStaticPartitionIndex].
    unfold bind. rewrite execAutoAnalyze_run. cbv zeta.
    fold (GenSQLForAnalyzeStaticPartitionIndex j index).
    change (AutoAnalyze t sctx statsHandle sysProcTracker (TableStatsVer j)
              "analyze table %n.%n partition %n index %n"
              [TableSchema j; GlobalTableName j; StaticPartitionName j; index])
      with ok.
    destruct ok; reflexivity.
  - rewrite (analyzeFirstIndex_run AutoAnalyze statsHandle sysProcTracker
               j sctx index [] t E). reflexivity.
Qed.

(** X7: the validity check on every job.  The predicate is asked exactly
    when the partition name is not empty, once, about the job's schema,
    table and that one partition; the answer is valid when the name is empty
    or the predicate says so; a valid answer carries the empty reason
    (the predicate's own reason is dropped) and calls no hook; an invalid
    one carries the predicate's reason and calls the failure hook if one is
    registered.  Nothing is executed and the pool is not touched. *)
Theorem validity_outcome j sctx t :
  let r := isValidToAnalyze t sctx (TableSchema j) (GlobalTableName j)
             [StaticPartitionName j] in
  let asked := negb (String.eqb (StaticPartitionName j) "") in
  let valid := negb asked || fst r in
  IsValidToAnalyze isValidToAnalyze j sctx t =
    Some ((valid, if valid then "" else snd r),
          t ++ (if asked
                then [EvIsValid sctx (TableSchema j) (GlobalTableName j)
                        [StaticPartitionName j] (fst r) (snd r)]
                else [])
            ++ (if valid then [] else hookCalls j false)).
Proof.
  intros r asked valid. subst asked valid. unfold IsValidToAnalyze.
  destruct (String.eqb (StaticPartitionName j) ""); cbn [negb orb].
  - unfold ret. rewrite app_nil_r. reflexivity.
  - unfold bind. rewrite callIsValidToAnalyze_run. fold r.
    cbv zeta. destruct r as [v reason]. cbn [fst snd].
    destruct v; cbn [negb].
    + unfold ret. rewrite app_nil_r. reflexivity.
    + unfold hookCalls, ret.
      destruct (failureHook j); cbn [isNil negb callHook emit];
        rewrite <- ?app_assoc, ?app_nil_r; reflexivity.
Qed.

Lemma applyOps_sameTarget ops : forall j, sameTarget (applyOps j ops) j.
Proof.
  unfold applyOps.
  induction ops as [|op ops IH]; intros j; simpl.
  - repeat split.
  - destruct (IH (applyOp j op)) as (A & B & C & D & E).
    unfold sameTarget. rewrite A, B, C, D, E.
    destruct op; repeat split.
Qed.

Lemma analyzeEachIndex_sameTarget j1 j2 sctx indexes :
  sameTarget j1 j2 ->
  forall t,
    analyzeEachIndex AutoAnalyze j1 sctx statsHandle sysProcTracker indexes t =
    analyzeEachIndex AutoAnalyze j2 sctx statsHandle sysProcTracker indexes t.
Proof.
  intros (A & B & C & _ & E).
  induction indexes as [|i rest IH]; intros t; [reflexivity|].
  cbn [analyzeEachIndex GenSQLForAnalyzeStaticPartitionIndex].
  rewrite A, B, C, E. unfold bind. rewrite !execAutoAnalyze_run. cbv zeta.
  destruct (AutoAnalyze t sctx statsHandle sysProcTracker (TableStatsVer j2)
              "analyze table %n.%n partition %n index %n"
              [TableSchema j2; GlobalTableName j2; StaticPartitionName j2; i]);
    cbn [negb]; [apply IH | reflexivity].
Qed.

Lemma analyzeBody_sameTarget j1 j2 t :
  sameTarget j1 j2 ->
  analyzeBody poolGet AutoAnalyze j1 statsHandle sysProcTracker t =
  analyzeBody poolGet AutoAnalyze j2 statsHandle sysProcTracker t.
Proof.
  intros T. pose proof T as (A & B & C & D & E).
  unfold analyzeBody, CallWithSCtx, bind, history.
  destruct (poolGet t (SPool statsHandle)) as [sctx|e]; [|reflexivity].
  cbn [emit].
  set (t1 := t ++ [EvPoolGet (SPool statsHandle) (inl sctx)]).
  replace (analyzeWithSession AutoAnalyze j1 statsHandle sysProcTracker
             sctx true t1)
    with (analyzeWithSession AutoAnalyze j2 statsHandle sysProcTracker
            sctx true t1); [reflexivity|].
  unfold analyzeWithSession, getAnalyzeType, HasNewlyAddedIndex.
  rewrite D.
  destruct (String.eqb _ analyzeStaticPartition).
  - unfold bind. rewrite !doAnalyzeStaticPartition_run.
    unfold GenSQLForAnalyzeStaticPartition, partitionStatement,
      GenSQLForAnalyzeStaticPartition.
    rewrite A, B, C, E. reflexivity.
  - destruct (String.eqb _ analyzeStaticPartitionIndex); [|reflexivity].
    unfold bind, analyzeStaticPartitionIndexes. rewrite D.
    destruct (List.length (Indexes j2) =? 0)%nat; [reflexivity|].
    destruct (AnalyzeVersion (GetSessionVars sctx) =? 1).
    + rewrite (analyzeEachIndex_sameTarget j1 j2 sctx (Indexes j2) T t1).
      reflexivity.
    + unfold analyzeFirstIndex, bind. rewrite D.
      destruct (indexAt (Indexes j2) 0 t1) as [[i t2]|]; [|reflexivity].
      unfold GenSQLForAnalyzeStaticPartitionIndex.
      rewrite A, B, C, E. reflexivity.
Qed.

(** X8: registering hooks and setting indicators or the weight, in any
    number and order, changes nothing of what the job analyzes: it
    generates the same SQL, has the same analyze type, and [Analyze] up to
    its [return] has the same interactions, the same error and the same
    final [success]. *)
Theorem setters_keep_behaviour j ops index t :
  let j' := applyOps j ops in
  GenSQLForAnalyzeStaticPartition j' = GenSQLForAnalyzeStaticPartition j /\
  GenSQLForAnalyzeStaticPartitionIndex j' index =
    GenSQLForAnalyzeStaticPartitionIndex j index /\
  getAnalyzeType j' = getAnalyzeType j /\
  analyzeBody poolGet AutoAnalyze j' statsHandle sysProcTracker t =
    analyzeBody poolGet AutoAnalyze j statsHandle sysProcTracker t.
Proof.
  intros j'. pose proof (applyOps_sameTarget ops j) as T. fold j' in T.
  pose proof T as (A & B & C & D & E).
  split; [|split; [|split]].
  - unfold GenSQLForAnalyzeStaticPartition. rewrite A, B, C. reflexivity.
  - unfold GenSQLForAnalyzeStaticPartitionIndex. rewrite A, B, C. reflexivity.
  - unfold getAnalyzeType, HasNewlyAddedIndex. rewrite D. reflexivity.
  - apply analyzeBody_sameTarget. exact T.
Qed.





(** X10: a freshly constructed job.  Its accessors give back the
    constructor's arguments, its weight is zero, it reports newly added
    indexes exactly when the index list it was given is not empty, and as no
    hook is registered yet, [Analyze] and [IsValidToAnalyze] on it return
    without calling any hook. *)
Theorem fresh_job
    (schema globalTableName partitionName : string)
    (globalTableID partitionID tableStatsVer lastAnalysisDuration : Z)
    (indexes : list string) (changePercentage tableSize : float)
    (sctx : Context) (t : Trace) :
  let j := NewStaticPartitionTableAnalysisJob schema globalTableName
             globalTableID partitionName partitionID indexes tableStatsVer
             changePercentage tableSize lastAnalysisDuration in
  GetTableID j = partitionID /\
  GetIndicators j =
    mkIndicators changePercentage tableSize lastAnalysisDuration /\
  GetWeight j = 0%float /\
  HasNewlyAddedIndex j = negb (List.length indexes =? 0)%nat /\
  GenSQLForAnalyzeStaticPartition j =
    ("analyze table %n.%n partition %n",
     [schema; globalTableName; partitionName]) /\
  (exists err evs,
     Analyze poolGet AutoAnalyze j statsHandle sysProcTracker t =
       Some (err, t ++ evs) /\ hookEvents evs = []) /\
  (exists res evs,
     IsValidToAnalyze isValidToAnalyze j sctx t = Some (res, t ++ evs) /\
     hookEvents evs = []).
Proof.
  intros j. repeat split.
  - unfold HasNewlyAddedIndex, j. cbn [Indexes NewStaticPartitionTableAnalysisJob].
    destruct indexes; reflexivity.
  - destruct (Analyze_run poolGet AutoAnalyze statsHandle sysProcTracker j t)
      as (success & evs & _ & H & R).
    eexists _, _. split; [exact R|].
    replace (hookCalls j success) with (@nil Event)
      by (unfold hookCalls; destruct success; reflexivity).
    rewrite app_nil_r. exact H.
  - unfold IsValidToAnalyze.
    destruct (String.eqb (StaticPartitionName j) ""); cbn [negb].
    + exists (true, ""), []. unfold ret. rewrite app_nil_r.
      split; reflexivity.
    + unfold bind. rewrite callIsValidToAnalyze_run. cbv zeta.
      destruct (isValidToAnalyze t sctx (TableSchema j) (GlobalTableName j)
                  [StaticPartitionName j]) as [v reason].
      cbn [fst snd]. destruct v; cbn [negb].
      * eexists _, _. split; reflexivity.
      * change (failureHook j) with (@None HookRef).
        cbn [isNil negb]. eexists _, _. split; reflexivity.
Qed.

End Dispatch.

(** ** The further properties at sample inputs *)

Lemma analyze_whole_partition_witness :
  Indexes Samples.jobPartition = [] /\
  Analyze (Samples.poolLends Samples.sctxV2) (Samples.execAnswers false)
    Samples.jobPartition Samples.handle Samples.tracker [] =
    Some (None,
          [EvPoolGet 0%nat (inl Samples.sctxV2);
           EvAutoAnalyze Samples.sctxV2 2 "analyze table %n.%n partition %n"
             ["test"; "t"; "p0"] false;
           EvPoolPut 0%nat Samples.sctxV2;
           EvHook 2%nat Samples.jobPartition]).
Proof.
  split; [reflexivity|].
  exact (analyze_whole_partition (Samples.poolLends Samples.sctxV2)
           (Samples.execAnswers false) Samples.handle Samples.tracker
           Samples.jobPartition Samples.sctxV2 [] eq_refl eq_refl).
Defined.

Lemma analyze_statement_count_witness :
  AnalyzeVersion (GetSessionVars Samples.sctxV2) <> 1 /\
  exists err evs,
    Analyze (Samples.poolLends Samples.sctxV2) (Samples.execAnswers true)
      Samples.jobIndexesV2 Samples.handle Samples.tracker [] =
      Some (err, [] ++ evs) /\
    List.length (execEvents evs) = 1%nat.
Proof.
  assert (V : AnalyzeVersion (GetSessionVars Samples.sctxV2) <> 1)
    by (simpl; lia).
  split; [exact V|].
  destruct (analyze_statement_count (Samples.poolLends Samples.sctxV2)
              (Samples.execAnswers true) Samples.handle Samples.tracker
              Samples.jobIndexesV2 []) as (err & evs & R & _ & O).
  exists err, evs. split; [exact R | exact (O V)].
Defined.

Lemma version1_all_succeed_witness :
  AnalyzeVersion (GetSessionVars Samples.sctxV1) = 1 /\
  analyzeStaticPartitionIndexes (Samples.execAnswers true)
    Samples.jobIndexesV1 Samples.sctxV1 Samples.handle Samples.tracker [] =
    Some (true,
          [indexStatement Samples.jobIndexesV1 Samples.sctxV1 "idx1" true;
           indexStatement Samples.jobIndexesV1 Samples.sctxV1 "idx2" true;
           indexStatement Samples.jobIndexesV1 Samples.sctxV1 "idx3" true]).
Proof.
  split; [reflexivity|].
  apply (version1_all_succeed (Samples.execAnswers true) Samples.handle
           Samples.tracker Samples.jobIndexesV1 Samples.sctxV1 [] eq_refl).
  intros t' i _. reflexivity.
Defined.

Lemma no_statement_iff_no_index_witness :
  Indexes Samples.jobPartition = [] /\
  exists ok evs,
    analyzeStaticPartitionIndexes (Samples.execAnswers false)
      Samples.jobPartition Samples.sctxV1 Samples.handle Samples.tracker [] =
      Some (ok, [] ++ evs) /\
    evs = [] /\ ok = true.
Proof.
  assert (E : Indexes Samples.jobPartition = []) by reflexivity.
  split; [exact E|].
  destruct (no_statement_iff_no_index (Samples.execAnswers false)
              Samples.handle Samples.tracker Samples.jobPartition
              Samples.sctxV1 []) as (ok & evs & R & I & T).
  exists ok, evs. split; [exact R | split; [exact (proj2 I E) | exact (T E)]].
Defined.

Lemma single_index_any_version_witness :
  Indexes (Samples.newJob ["idx1"] 1) = ["idx1"] /\
  analyzeStaticPartitionIndexes (Samples.execAnswers true)
    (Samples.newJob ["idx1"] 1) Samples.sctxV1 Samples.handle
    Samples.tracker [] =
    Some (true, [indexStatement (Samples.newJob ["idx1"] 1) Samples.sctxV1
                   "idx1" true]) /\
  analyzeStaticPartitionIndexes (Samples.execAnswers true)
    (Samples.newJob ["idx1"] 1) Samples.sctxV2 Samples.handle
    Samples.tracker [] =
    Some (true, [indexStatement (Samples.newJob ["idx1"] 1) Samples.sctxV2
                   "idx1" true]).
Proof.
  split; [reflexivity|]. split.
  - exact (single_index_any_version (Samples.execAnswers true) Samples.handle
             Samples.tracker (Samples.newJob ["idx1"] 1) Samples.sctxV1
             "idx1" [] eq_refl).
  - exact (single_index_any_version (Samples.execAnswers true) Samples.handle
             Samples.tracker (Samples.newJob ["idx1"] 1) Samples.sctxV2
             "idx1" [] eq_refl).
Defined.

